(** * The cluster namespace of the client: [elasticsearch/client/cluster.py]

    A shallow embedding of [ClusterClient] and the proofs of its
    path-building, defaulting and pass-through properties.

    Every method of the class has the same shape: it may replace one of its
    arguments by a placeholder, builds a URL, calls
    [self.transport.perform_request] once and returns the second component of
    the pair it gets back.  The embedding keeps that shape: a method is a
    computation in a state-and-failure monad whose state holds the client
    object, the transport's own state and a log of the requests handed to the
    transport. *)

From Stdlib Require Import String Ascii List Bool ZArith Lia.
Import ListNotations.
Open Scope string_scope.

(** ** Python values reaching the module *)

(** An identifier argument ([index], [metric], [node_id], [metric_family]) is
    [None] or a [str]: [option string], [None] being Python's [None], which is
    also the default of every such parameter. *)
Definition ident := option string.

(** Python truthiness on these values, as tested by [if index and not metric]:
    [None] and the empty string are false, any other string is true. *)
Definition truthy (v : ident) : bool :=
  match v with
  | Some (String _ _) => true
  | Some EmptyString => false
  | None => false
  end.

(** The first argument of [perform_request]. *)
Inductive Method := GET | POST | PUT.

(** The ten methods of [ClusterClient]. *)
Inductive Operation :=
| OpHealth | OpPendingTasks | OpState | OpStats | OpReroute
| OpGetSettings | OpPutSettings | OpNodeStats | OpNodeInfo | OpNodeShutdown.

(** A parameter of a [def] line either has no default, or defaults to [None]
    (the only default used in the file). *)
Inductive Default := Required | DefaultNone.

(** The parameter lists of the [def] lines, [self] left out. *)
Definition parameters (op : Operation) : list (string * Default) :=
  match op with
  | OpHealth => [("index", DefaultNone); ("params", DefaultNone)]
  | OpPendingTasks => [("params", DefaultNone)]
  | OpState =>
      [("metric", DefaultNone); ("index", DefaultNone); ("params", DefaultNone)]
  | OpStats => [("node_id", DefaultNone); ("params", DefaultNone)]
  | OpReroute => [("body", DefaultNone); ("params", DefaultNone)]
  | OpGetSettings => [("params", DefaultNone)]
  | OpPutSettings => [("body", Required); ("params", DefaultNone)]
  | OpNodeStats =>
      [("node_id", DefaultNone); ("metric_family", DefaultNone);
       ("metric", DefaultNone); ("params", DefaultNone)]
  | OpNodeInfo =>
      [("node_id", DefaultNone); ("metric", DefaultNone);
       ("params", DefaultNone)]
  | OpNodeShutdown => [("node_id", DefaultNone); ("params", DefaultNone)]
  end.

(** How an operation declares the parameter [name]: [None] when it has no such
    parameter. *)
Fixpoint declared (name : string) (ps : list (string * Default))
  : option Default :=
  match ps with
  | [] => None
  | (n, d) :: ps' => if String.eqb n name then Some d else declared name ps'
  end.

(** ** Path building *)

Module Utils.

(** Modelled from the spec: the parts [_make_path] of [.utils] leaves out
    ([.utils] is not among the sources).  The spec has the path built
    "skipping absent" identifiers; an argument that is [None] is absent.
    Whether the empty string counts as absent too is not said, so both
    readings are kept: [skip_empty] tells whether [''] is left out as
    well. *)
Definition skipped (skip_empty : bool) (p : ident) : bool :=
  match p with
  | None => true
  | Some EmptyString => skip_empty
  | Some (String _ _) => false
  end.

(** Modelled from the spec: the parts [_make_path] of [.utils] joins, the
    ones it does not skip, in the order given. *)
Fixpoint kept (skip_empty : bool) (parts : list ident) : list string :=
  match parts with
  | [] => []
  | None :: parts' => kept skip_empty parts'
  | Some s :: parts' =>
      if skipped skip_empty (Some s) then kept skip_empty parts'
      else s :: kept skip_empty parts'
  end.

(** Modelled from the spec: [_make_path] of [.utils], called on any number
    of parts; [.utils] is not among the sources.  The spec: "build a request
    path by joining fixed segments with the supplied identifiers, skipping
    absent ones", every documented path starting with a slash.  No escaping
    of the parts is described, and none is modelled. *)
Definition _make_path (skip_empty : bool) (parts : list ident) : string :=
  "/" ++ String.concat "/" (kept skip_empty parts).

End Utils.
Import Utils.

(** ** The transport, the client object and the monad of the methods *)

Section Model.

(** [Params]: the dictionary of query options the [query_params] decorator
    hands to a method as [params]; [Body]: a request payload; [Data]: a
    parsed response body; [Failure]: what [perform_request] may raise;
    [Wire]: the state of the transport and of everything behind it. *)
Variables Params Body Data Failure Wire : Type.

(** Which reading of [_make_path] is in force, see [Utils.skipped]. *)
Variable skip_empty : bool.

(** The arguments of one call of [perform_request(method, url, params=None,
    body=None)].  A payload is [None] (Python's [None], also what the
    transport sees when the keyword is not given) or a value. *)
Record Request := mkRequest {
  req_method : Method;
  req_path : string;
  req_params : Params;
  req_body : option Body
}.

(** The contract of the transport: a request and the transport's state give
    either a failure or a pair (status, parsed body), and a new state. *)
Definition Transport : Type :=
  Request -> Wire -> (Failure + (Z * Data)) * Wire.

(** The client object, [self]: the methods use its [transport] attribute
    only. *)
Record ClusterClient := mkClient {
  transport : Transport
}.

(** What a method runs in: the client object, the transport's state, and the
    requests handed to the transport so far, oldest first. *)
Record World := mkWorld {
  self : ClusterClient;
  wire : Wire;
  sent : list Request
}.

(** A computation either raises a [Failure] or returns a value, and leaves a
    world behind. *)
Definition M (A : Type) : Type := World -> (Failure + A) * World.

Definition ret {A : Type} (a : A) : M A := fun w => (inr a, w).

(** Sequencing: a failure of the first computation is the failure of the
    whole; the module has no [try]. *)
Definition bind {A B : Type} (m : M A) (k : A -> M B) : M B :=
  fun w =>
    match m w with
    | (inl e, w') => (inl e, w')
    | (inr a, w') => k a w'
    end.

(** [self.transport.perform_request(method, url, params=params, body=body)]:
    the request goes to the transport held by the client, is logged, and the
    transport's state moves on. *)
Definition perform_request (method : Method) (url : string)
    (params : Params) (body : option Body) : M (Z * Data) :=
  fun w =>
    let req := mkRequest method url params body in
    let '(r, wire') := transport (self w) req (wire w) in
    (r, mkWorld (self w) wire' (sent w ++ [req])).

Notation "' pat <- c1 ;; c2" :=
  (bind c1 (fun x => match x with pat => c2 end))
  (at level 61, pat pattern, c1 at next level, right associativity).

(** *** The methods of [ClusterClient] *)

Definition health (index : ident) (params : Params) : M Data :=
  '(_, data) <- perform_request GET
      (_make_path skip_empty [Some "_cluster"; Some "health"; index])
      params None ;;
  ret data.

Definition pending_tasks (params : Params) : M Data :=
  '(_, data) <- perform_request GET "/_cluster/pending_tasks" params None ;;
  ret data.

Definition state (metric index : ident) (params : Params) : M Data :=
  let metric :=
    if truthy index && negb (truthy metric) then Some "_all" else metric in
  '(_, data) <- perform_request GET
      (_make_path skip_empty [Some "_cluster/state"; metric; index])
      params None ;;
  ret data.

Definition stats (node_id : ident) (params : Params) : M Data :=
  let url := "/_cluster/stats" in
  let url :=
    if truthy node_id
    then _make_path skip_empty [Some "_cluster/stats/nodes"; node_id]
    else url in
  '(_, data) <- perform_request GET url params None ;;
  ret data.

Definition reroute (body : option Body) (params : Params) : M Data :=
  '(_, data) <- perform_request POST "/_cluster/reroute" params body ;;
  ret data.

Definition get_settings (params : Params) : M Data :=
  '(_, data) <- perform_request GET "/_cluster/settings" params None ;;
  ret data.

Definition put_settings (body : option Body) (params : Params) : M Data :=
  '(_, data) <- perform_request PUT "/_cluster/settings" params body ;;
  ret data.

Definition node_stats (node_id metric_family metric : ident)
    (params : Params) : M Data :=
  let metric_family :=
    if truthy metric && negb (truthy metric_family) then Some "all"
    else metric_family in
  '(_, data) <- perform_request GET
      (_make_path skip_empty
         [Some "_nodes"; node_id; Some "stats"; metric_family; metric])
      params None ;;
  ret data.

Definition node_info (node_id metric : ident) (params : Params) : M Data :=
  let node_id :=
    if negb (truthy node_id) && truthy metric then Some "_all"
    else node_id in
  '(_, data) <- perform_request GET
      (_make_path skip_empty [Some "_nodes"; node_id; metric])
      params None ;;
  ret data.

Definition node_shutdown (node_id : ident) (params : Params) : M Data :=
  '(_, data) <- perform_request POST
      (_make_path skip_empty
         [Some "_cluster"; Some "nodes"; node_id; Some "_shutdown"])
      params None ;;
  ret data.

(** *** Calls *)

(** A call of a method with its arguments: what "every operation and every
    argument combination" ranges over. *)
Inductive Call :=
| Health (index : ident) (params : Params)
| PendingTasks (params : Params)
| State (metric index : ident) (params : Params)
| Stats (node_id : ident) (params : Params)
| Reroute (body : option Body) (params : Params)
| GetSettings (params : Params)
| PutSettings (body : option Body) (params : Params)
| NodeStats (node_id metric_family metric : ident) (params : Params)
| NodeInfo (node_id metric : ident) (params : Params)
| NodeShutdown (node_id : ident) (params : Params).

Definition operation (c : Call) : Operation :=
  match c with
  | Health _ _ => OpHealth
  | PendingTasks _ => OpPendingTasks
  | State _ _ _ => OpState
  | Stats _ _ => OpStats
  | Reroute _ _ => OpReroute
  | GetSettings _ => OpGetSettings
  | PutSettings _ _ => OpPutSettings
  | NodeStats _ _ _ _ => OpNodeStats
  | NodeInfo _ _ _ => OpNodeInfo
  | NodeShutdown _ _ => OpNodeShutdown
  end.

Definition invoke (c : Call) : M Data :=
  match c with
  | Health index params => health index params
  | PendingTasks params => pending_tasks params
  | State metric index params => state metric index params
  | Stats node_id params => stats node_id params
  | Reroute body params => reroute body params
  | GetSettings params => get_settings params
  | PutSettings body params => put_settings body params
  | NodeStats node_id metric_family metric params =>
      node_stats node_id metric_family metric params
  | NodeInfo node_id metric params => node_info node_id metric params
  | NodeShutdown node_id params => node_shutdown node_id params
  end.

(** The call of [op] in which every parameter that has a default is left
    out; [body] is used by the one method that requires it. *)
Definition bare_call (op : Operation) (body : option Body)
    (params : Params) : Call :=
  match op with
  | OpHealth => Health None params
  | OpPendingTasks => PendingTasks params
  | OpState => State None None params
  | OpStats => Stats None params
  | OpReroute => Reroute None params
  | OpGetSettings => GetSettings params
  | OpPutSettings => PutSettings body params
  | OpNodeStats => NodeStats None None None params
  | OpNodeInfo => NodeInfo None None params
  | OpNodeShutdown => NodeShutdown None params
  end.

(** What the caller of a method observes of a transport result: the failure
    raised, or the body of the (status, body) pair. *)
Definition body_of (r : Failure + (Z * Data)) : Failure + Data :=
  match r with
  | inl e => inl e
  | inr (_, data) => inr data
  end.

End Model.

Arguments mkRequest {Params Body} req_method req_path req_params req_body.
Arguments req_method {Params Body} r.
Arguments req_path {Params Body} r.
Arguments req_params {Params Body} r.
Arguments req_body {Params Body} r.
Arguments mkClient {Params Body Data Failure Wire} transport.
Arguments transport {Params Body Data Failure Wire} c.
Arguments mkWorld {Params Body Data Failure Wire} self wire sent.
Arguments self {Params Body Data Failure Wire} w.
Arguments wire {Params Body Data Failure Wire} w.
Arguments sent {Params Body Data Failure Wire} w.
Arguments ret {Params Body Data Failure Wire A} a w.
Arguments bind {Params Body Data Failure Wire A B} m k w.
Arguments perform_request {Params Body Data Failure Wire}
  method url params body w.
Arguments health {Params Body Data Failure Wire} skip_empty index params w.
Arguments pending_tasks {Params Body Data Failure Wire} params w.
Arguments state {Params Body Data Failure Wire}
  skip_empty metric index params w.
Arguments stats {Params Body Data Failure Wire} skip_empty node_id params w.
Arguments reroute {Params Body Data Failure Wire} body params w.
Arguments get_settings {Params Body Data Failure Wire} params w.
Arguments put_settings {Params Body Data Failure Wire} body params w.
Arguments node_stats {Params Body Data Failure Wire}
  skip_empty node_id metric_family metric params w.
Arguments node_info {Params Body Data Failure Wire}
  skip_empty node_id metric params w.
Arguments node_shutdown {Params Body Data Failure Wire}
  skip_empty node_id params w.
Arguments Health {Params Body} index params.
Arguments PendingTasks {Params Body} params.
Arguments State {Params Body} metric index params.
Arguments Stats {Params Body} node_id params.
Arguments Reroute {Params Body} body params.
Arguments GetSettings {Params Body} params.
Arguments PutSettings {Params Body} body params.
Arguments NodeStats {Params Body} node_id metric_family metric params.
Arguments NodeInfo {Params Body} node_id metric params.
Arguments NodeShutdown {Params Body} node_id params.
Arguments operation {Params Body} c.
Arguments invoke {Params Body Data Failure Wire} skip_empty c w.
Arguments bare_call {Params Body} op body params.
Arguments body_of {Data Failure} r.

(** ** Observations on a run *)

Section Observations.

Context {Params Body Data Failure Wire : Type}.

(** The requests a call hands to the transport: what it adds to the log of
    the world it starts in. *)
Definition issued (skip_empty : bool) (c : Call Params Body)
    (w : World Params Body Data Failure Wire) : list (Request Params Body) :=
  skipn (length (sent w)) (sent (snd (invoke skip_empty c w))).

(** What the transport held by the client of [w] answers to [req], and the
    state it moves to. *)
Definition reply (w : World Params Body Data Failure Wire)
    (req : Request Params Body) : (Failure + (Z * Data)) * Wire :=
  transport (self w) req (wire w).

(** An identifier with the empty string turned into [None]. *)
Definition absent_if_empty (v : ident) : ident :=
  if truthy v then v else None.

(** A call with every empty-string identifier replaced by an absent one. *)
Definition without_empty (c : Call Params Body) : Call Params Body :=
  match c with
  | Health index p => Health (absent_if_empty index) p
  | PendingTasks p => PendingTasks p
  | State metric index p =>
      State (absent_if_empty metric) (absent_if_empty index) p
  | Stats node_id p => Stats (absent_if_empty node_id) p
  | Reroute b p => Reroute b p
  | GetSettings p => GetSettings p
  | PutSettings b p => PutSettings b p
  | NodeStats node_id metric_family metric p =>
      NodeStats (absent_if_empty node_id) (absent_if_empty metric_family)
        (absent_if_empty metric) p
  | NodeInfo node_id metric p =>
      NodeInfo (absent_if_empty node_id) (absent_if_empty metric) p
  | NodeShutdown node_id p => NodeShutdown (absent_if_empty node_id) p
  end.

(** The [params] a call is given. *)
Definition call_params (c : Call Params Body) : Params :=
  match c with
  | Health _ p | PendingTasks p | State _ _ p | Stats _ p | Reroute _ p
  | GetSettings p | PutSettings _ p | NodeStats _ _ _ p | NodeInfo _ _ p
  | NodeShutdown _ p => p
  end.

End Observations.

(** The method and the base path the specification documents for each
    operation, as its table of operations lists them. *)
Definition documented (op : Operation) : Method * string :=
  match op with
  | OpHealth => (GET, "/_cluster/health")
  | OpPendingTasks => (GET, "/_cluster/pending_tasks")
  | OpState => (GET, "/_cluster/state")
  | OpStats => (GET, "/_cluster/stats")
  | OpReroute => (POST, "/_cluster/reroute")
  | OpGetSettings => (GET, "/_cluster/settings")
  | OpPutSettings => (PUT, "/_cluster/settings")
  | OpNodeStats => (GET, "/_nodes/stats")
  | OpNodeInfo => (GET, "/_nodes")
  | OpNodeShutdown => (POST, "/_cluster/nodes/_shutdown")
  end.

(** The part of the REST API an operation addresses, as the first segment of
    the paths in its method: [_cluster] for the cluster operations, the
    shutdown of nodes among them, and [_nodes] for [node_stats] and
    [node_info]. *)
Definition namespace (op : Operation) : string :=
  match op with
  | OpNodeStats | OpNodeInfo => "/_nodes"
  | _ => "/_cluster/"
  end.

(** ** Transport stubs, for running the methods *)

Module Stub.

Definition Params := list (string * string).
Definition Body := string.
Definition Data := string.
Definition Failure := string.

(** The state of a stub: how many requests it has seen. *)
Definition Wire := nat.

(** Answers every request with status 200 and the request path as body. *)
Definition answering : Transport Params Body Data Failure Wire :=
  fun req n => (inr (200%Z, req_path req), S n).

(** Fails every request. *)
Definition refusing : Transport Params Body Data Failure Wire :=
  fun _ n => (inl "ConnectionError", S n).

(** Fails the first request it sees and answers the later ones. *)
Definition flaky : Transport Params Body Data Failure Wire :=
  fun req n =>
    match n with
    | O => (inl "ConnectionTimeout", S n)
    | S _ => (inr (200%Z, req_path req), S n)
    end.

(** A fresh world around a transport: nothing sent yet. *)
Definition fresh (t : Transport Params Body Data Failure Wire)
  : World Params Body Data Failure Wire :=
  mkWorld (mkClient t) 0 [].

End Stub.

(** * Properties *)

Section Properties.

Context {Params Body Data Failure Wire : Type}.

Implicit Types (skip_empty : bool) (w : World Params Body Data Failure Wire)
  (c : Call Params Body) (params : Params) (req : Request Params Body).

(** One request handed to the transport, its body returned: the run of the
    two lines every method ends with. *)
Lemma run_request method url params (body : option Body) w :
  bind (perform_request method url params body)
       (fun x => match x with (_, data) => ret data end) w =
  let req := mkRequest method url params body in
  (body_of (fst (reply w req)),
   mkWorld (self w) (snd (reply w req)) (sent w ++ [req])).
Proof.
  unfold bind, perform_request, reply, body_of, ret; cbn.
  destruct (transport (self w) _ (wire w)) as [[e | [status data]] wire'];
    reflexivity.
Qed.

(** Every call runs as one request: some [req] is handed to the transport,
    and the outcome and the final world are those of that one exchange. *)
Lemma invoke_run skip_empty c w :
  exists req,
    invoke skip_empty c w =
    (body_of (fst (reply w req)),
     mkWorld (self w) (snd (reply w req)) (sent w ++ [req])).
Proof.
  destruct c; cbn [invoke];
    unfold health, pending_tasks, state, stats, reroute, get_settings,
      put_settings, node_stats, node_info, node_shutdown;
    cbv zeta; eexists; apply run_request.
Qed.

Lemma skipn_length_app {A : Type} (l l' : list A) :
  skipn (length l) (l ++ l') = l'.
Proof.
  induction l as [| a l IH]; [reflexivity | exact IH].
Qed.

Lemma issued_run skip_empty c w r s wi l :
  invoke skip_empty c w = (r, mkWorld s wi (sent w ++ l)) ->
  issued skip_empty c w = l.
Proof.
  intros H; unfold issued; rewrite H; cbn [snd sent].
  apply skipn_length_app.
Qed.

(** Runs a call down to the one request it issues. *)
Ltac run_call :=
  eapply issued_run; cbn [invoke];
  unfold health, pending_tasks, state, stats, reroute, get_settings,
    put_settings, node_stats, node_info, node_shutdown;
  cbn [truthy andb negb]; cbv zeta; rewrite run_request; reflexivity.

(** C1. A call of [state] with a non-empty [index] and no [metric] issues
    one GET request whose path has the all-metrics placeholder [_all]
    between [/_cluster/state] and the index: [/_cluster/state/_all/index]. *)
Theorem state_index_defaults_metric skip_empty (index : string) params w :
  index <> "" ->
  issued skip_empty (State None (Some index) params) w =
  [mkRequest GET ("/_cluster/state/_all/" ++ index) params None].
Proof.
  intros Hindex.
  destruct index as [| a index]; [contradiction |].
  run_call.
Qed.

(** C2. A call of [stats] with a non-empty [node_id] goes to the per-node
    path [/_cluster/stats/nodes/node_id]; a call without [node_id] goes to
    the cluster-wide path [/_cluster/stats]. *)
Theorem stats_routing skip_empty params w :
  (forall node_id : string,
      node_id <> "" ->
      issued skip_empty (Stats (Some node_id) params) w =
      [mkRequest GET ("/_cluster/stats/nodes/" ++ node_id) params None]) /\
  issued skip_empty (Stats None params) w =
  [mkRequest GET "/_cluster/stats" params None].
Proof.
  split.
  - intros node_id Hnode.
    destruct node_id as [| a node_id]; [contradiction |].
    run_call.
  - run_call.
Qed.

(** C3. A call of [node_stats] with a non-empty [metric] and no
    [metric_family] issues one GET request in whose path the all-families
    placeholder [all] stands before the metric:
    [/_nodes/stats/all/metric] without a node, and
    [/_nodes/node_id/stats/all/metric] with a non-empty [node_id]. *)
Theorem node_stats_metric_defaults_family skip_empty (metric : string)
    params w :
  metric <> "" ->
  issued skip_empty (NodeStats None None (Some metric) params) w =
  [mkRequest GET ("/_nodes/stats/all/" ++ metric) params None] /\
  (forall node_id : string,
      node_id <> "" ->
      issued skip_empty (NodeStats (Some node_id) None (Some metric) params) w =
      [mkRequest GET ("/_nodes/" ++ node_id ++ "/stats/all/" ++ metric)
         params None]).
Proof.
  intros Hmetric.
  destruct metric as [| a metric]; [contradiction |].
  split.
  - run_call.
  - intros node_id Hnode.
    destruct node_id as [| b node_id]; [contradiction |].
    run_call.
Qed.

(** C4. A call of [node_info] with a non-empty [metric] and no [node_id]
    issues one GET request whose path has the all-nodes placeholder [_all]
    in the place of the node: [/_nodes/_all/metric]. *)
Theorem node_info_metric_defaults_node skip_empty (metric : string) params w :
  metric <> "" ->
  issued skip_empty (NodeInfo None (Some metric) params) w =
  [mkRequest GET ("/_nodes/_all/" ++ metric) params None].
Proof.
  intros Hmetric.
  destruct metric as [| a metric]; [contradiction |].
  run_call.
Qed.

(** C5. Called with no optional argument, every operation issues one
    request, with the documented method and exactly the documented base
    path. *)
Theorem bare_call_documented skip_empty (op : Operation)
    (body : option Body) params w :
  exists req,
    issued skip_empty (bare_call op body params) w = [req] /\
    req_method req = fst (documented op) /\
    req_path req = snd (documented op) /\
    req_params req = params.
Proof.
  destruct op; cbn [bare_call]; eexists; (split; [run_call |]);
    repeat split.
Qed.

(** C6. Whatever the operation and its arguments, when the transport
    answers the request of the call with a pair (status, body), the call
    returns that body, whatever the status. *)
Theorem returns_transport_body skip_empty c w :
  exists req,
    issued skip_empty c w = [req] /\
    forall (status : Z) (data : Data),
      fst (reply w req) = inr (status, data) ->
      fst (invoke skip_empty c w) = inr data.
Proof.
  destruct (invoke_run skip_empty c w) as [req Hrun].
  exists req; split.
  - eapply issued_run; exact Hrun.
  - intros status data Hreply.
    rewrite Hrun; cbn [fst]; rewrite Hreply; reflexivity.
Qed.

(** C7. Every call hands exactly one request to the transport, failing or
    not: the log grows by the requests of the call, which are one; the
    transport's state is the one that single exchange leaves; and the client
    object is the one the call started with. *)
Theorem one_request_per_call skip_empty c w :
  length (issued skip_empty c w) = 1 /\
  sent (snd (invoke skip_empty c w)) = (sent w ++ issued skip_empty c w)%list /\
  (exists req,
      issued skip_empty c w = [req] /\
      wire (snd (invoke skip_empty c w)) = snd (reply w req)) /\
  self (snd (invoke skip_empty c w)) = self w.
Proof.
  destruct (invoke_run skip_empty c w) as [req Hrun].
  assert (Hissued : issued skip_empty c w = [req])
    by (eapply issued_run; exact Hrun).
  rewrite Hissued, Hrun; cbn [snd sent self wire length].
  repeat split.
  exists req; split; reflexivity.
Qed.

(** C8. A call raises exactly when the transport raises on the one request
    of the call, and it raises the transport's failure itself; failing or
    not, that request is the only one, and the client object is left as it
    was. *)
Theorem failure_passes_through skip_empty c w :
  exists req,
    issued skip_empty c w = [req] /\
    (forall e : Failure,
        fst (invoke skip_empty c w) = inl e <-> fst (reply w req) = inl e) /\
    self (snd (invoke skip_empty c w)) = self w.
Proof.
  destruct (invoke_run skip_empty c w) as [req Hrun].
  exists req; split; [eapply issued_run; exact Hrun |].
  rewrite Hrun; cbn [fst snd self]; split; [| reflexivity].
  intros e; unfold body_of.
  destruct (fst (reply w req)) as [e' | [status data]].
  - split; intros H; injection H as ->; reflexivity.
  - split; intros H; discriminate H.
Qed.

(** Rewrites the requests of the call in the goal into the one request the
    call issues. *)
Ltac issued_one :=
  match goal with
  | |- context [issued ?s ?c ?w] =>
      let H := fresh "Hissued" in
      eassert (H : issued s c w = [_]) by run_call;
      rewrite H; clear H
  end.

(** C9. The tests of the methods look at truthiness, not at presence.  With
    an empty [index] and no [metric], [state] puts no [_all] in the path;
    with an empty [node_id], [stats] stays on [/_cluster/stats]; with an
    empty [metric], [node_stats] puts no [all] in the path; with an empty
    [node_id] and a non-empty [metric], [node_info] defaults the node to
    [_all].  And where the path leaves empty strings out, a call with empty
    identifiers runs exactly as the call with those identifiers absent. *)
Theorem tests_look_at_truthiness skip_empty params w :
  issued skip_empty (State None (Some "") params) w =
  [mkRequest GET
     (if skip_empty then "/_cluster/state" else "/_cluster/state/")
     params None] /\
  issued skip_empty (Stats (Some "") params) w =
  [mkRequest GET "/_cluster/stats" params None] /\
  issued skip_empty (NodeStats None None (Some "") params) w =
  [mkRequest GET (if skip_empty then "/_nodes/stats" else "/_nodes/stats/")
     params None] /\
  (forall metric : string,
      metric <> "" ->
      issued skip_empty (NodeInfo (Some "") (Some metric) params) w =
      [mkRequest GET ("/_nodes/_all/" ++ metric) params None]) /\
  (forall c, invoke true c w = invoke true (without_empty c) w).
Proof.
  repeat split.
  - destruct skip_empty; run_call.
  - run_call.
  - destruct skip_empty; run_call.
  - intros metric Hmetric.
    destruct metric as [| a metric]; [contradiction |].
    run_call.
  - intros c; destruct c as
      [index p | p | metric index p | node_id p | b p | p | b p
      | node_id metric_family metric p | node_id metric p | node_id p];
      try reflexivity.
    + destruct index as [[| ? ?] |]; reflexivity.
    + destruct metric as [[| ? ?] |], index as [[| ? ?] |]; reflexivity.
    + destruct node_id as [[| ? ?] |]; reflexivity.
    + destruct node_id as [[| ? ?] |], metric_family as [[| ? ?] |],
        metric as [[| ? ?] |]; reflexivity.
    + destruct node_id as [[| ? ?] |], metric as [[| ? ?] |]; reflexivity.
    + destruct node_id as [[| ? ?] |]; reflexivity.
Qed.

(** C10. [reroute] and [put_settings] hand their [body] argument to the
    transport; every other operation, the POST of [node_shutdown] too,
    sends its request with no body.  Only [put_settings] declares [body]
    without a default; [reroute] declares it with the default [None], and
    called without it sends a request with no body. *)
Theorem only_reroute_and_put_settings_send_body skip_empty params w :
  (forall body : option Body,
      map req_body (issued skip_empty (Reroute body params) w) = [body]) /\
  (forall body : option Body,
      map req_body (issued skip_empty (PutSettings body params) w) =
      [body]) /\
  (forall c,
      operation c <> OpReroute ->
      operation c <> OpPutSettings ->
      map req_body (issued skip_empty c w) = [None]) /\
  (forall op,
      declared "body" (parameters op) = Some Required <->
      op = OpPutSettings) /\
  declared "body" (parameters OpReroute) = Some DefaultNone /\
  (forall body : option Body,
      map req_body (issued skip_empty (bare_call OpReroute body params) w) =
      [None]).
Proof.
  split; [| split; [| split; [| split; [| split]]]].
  - intros body; issued_one; reflexivity.
  - intros body; issued_one; reflexivity.
  - intros c Hreroute Hput.
    destruct c; cbn [operation] in Hreroute, Hput;
      try contradiction; issued_one; reflexivity.
  - intros op; split.
    + destruct op; cbn; intros H; try discriminate H; reflexivity.
    + intros ->; reflexivity.
  - reflexivity.
  - intros body; cbn [bare_call]; issued_one; reflexivity.
Qed.

(** ** The paths with the identifiers given *)

(** X1. [health] with a non-empty [index] asks for the health of that index:
    one GET of [/_cluster/health/index]. *)
Theorem health_of_index skip_empty (index : string) params w :
  index <> "" ->
  issued skip_empty (Health (Some index) params) w =
  [mkRequest GET ("/_cluster/health/" ++ index) params None].
Proof.
  intros Hindex.
  destruct index as [| a index]; [contradiction |].
  run_call.
Qed.

(** X2. [node_shutdown] with a non-empty [node_id] puts the node between
    [/_cluster/nodes] and [_shutdown]: one POST of
    [/_cluster/nodes/node_id/_shutdown], without a body. *)
Theorem node_shutdown_of_node skip_empty (node_id : string) params w :
  node_id <> "" ->
  issued skip_empty (NodeShutdown (Some node_id) params) w =
  [mkRequest POST ("/_cluster/nodes/" ++ node_id ++ "/_shutdown") params None].
Proof.
  intros Hnode.
  destruct node_id as [| a node_id]; [contradiction |].
  run_call.
Qed.

(** X3. A non-empty [metric] given to [state] is never replaced: with a
    non-empty [index] the path is [/_cluster/state/metric/index], without an
    index it is [/_cluster/state/metric]. *)
Theorem state_keeps_given_metric skip_empty (metric : string) params w :
  metric <> "" ->
  issued skip_empty (State (Some metric) None params) w =
  [mkRequest GET ("/_cluster/state/" ++ metric) params None] /\
  (forall index : string,
      index <> "" ->
      issued skip_empty (State (Some metric) (Some index) params) w =
      [mkRequest GET ("/_cluster/state/" ++ metric ++ "/" ++ index)
         params None]).
Proof.
  intros Hmetric.
  destruct metric as [| a metric]; [contradiction |].
  split.
  - run_call.
  - intros index Hindex.
    destruct index as [| b index]; [contradiction |].
    run_call.
Qed.

(** X4. A non-empty [metric_family] given to [node_stats] is never replaced
    by [all]: the path is [/_nodes/stats/family] without a metric and
    [/_nodes/stats/family/metric] with a non-empty one, the node, when given
    and non-empty, standing between [/_nodes] and [stats]. *)
Theorem node_stats_keeps_given_family skip_empty (family : string) params w :
  family <> "" ->
  issued skip_empty (NodeStats None (Some family) None params) w =
  [mkRequest GET ("/_nodes/stats/" ++ family) params None] /\
  (forall metric : string,
      metric <> "" ->
      issued skip_empty (NodeStats None (Some family) (Some metric) params) w =
      [mkRequest GET ("/_nodes/stats/" ++ family ++ "/" ++ metric)
         params None]) /\
  (forall node_id : string,
      node_id <> "" ->
      issued skip_empty (NodeStats (Some node_id) (Some family) None params) w =
      [mkRequest GET ("/_nodes/" ++ node_id ++ "/stats/" ++ family)
         params None]) /\
  (forall node_id metric : string,
      node_id <> "" ->
      metric <> "" ->
      issued skip_empty
        (NodeStats (Some node_id) (Some family) (Some metric) params) w =
      [mkRequest GET
         ("/_nodes/" ++ node_id ++ "/stats/" ++ family ++ "/" ++ metric)
         params None]).
Proof.
  intros Hfamily.
  destruct family as [| a family]; [contradiction |].
  split; [run_call | split; [| split]].
  - intros metric Hmetric.
    destruct metric as [| b metric]; [contradiction |].
    run_call.
  - intros node_id Hnode.
    destruct node_id as [| b node_id]; [contradiction |].
    run_call.
  - intros node_id metric Hnode Hmetric.
    destruct node_id as [| b node_id]; [contradiction |].
    destruct metric as [| d metric]; [contradiction |].
    run_call.
Qed.

(** X5. A non-empty [node_id] given to [node_info] is never replaced by
    [_all]: the path is [/_nodes/node_id] without a metric and
    [/_nodes/node_id/metric] with a non-empty one; and [node_stats] with a
    non-empty [node_id] alone asks for [/_nodes/node_id/stats]. *)
Theorem node_paths_keep_given_node skip_empty (node_id : string) params w :
  node_id <> "" ->
  issued skip_empty (NodeInfo (Some node_id) None params) w =
  [mkRequest GET ("/_nodes/" ++ node_id) params None] /\
  (forall metric : string,
      metric <> "" ->
      issued skip_empty (NodeInfo (Some node_id) (Some metric) params) w =
      [mkRequest GET ("/_nodes/" ++ node_id ++ "/" ++ metric) params None]) /\
  issued skip_empty (NodeStats (Some node_id) None None params) w =
  [mkRequest GET ("/_nodes/" ++ node_id ++ "/stats") params None].
Proof.
  intros Hnode.
  destruct node_id as [| a node_id]; [contradiction |].
  split; [run_call | split; [| run_call]].
  intros metric Hmetric.
  destruct metric as [| b metric]; [contradiction |].
  run_call.
Qed.

(** ** Defaults and placeholders *)

(** X6. Defaulting is the same as giving the placeholder: whenever the test
    of a method fires, the call runs exactly as the call in which the caller
    wrote the placeholder: [_all] as the metric of [state], [all] as the
    metric family of [node_stats], [_all] as the node of [node_info]. *)
Theorem defaulting_is_giving_the_placeholder skip_empty params w :
  (forall metric index : ident,
      truthy index = true ->
      truthy metric = false ->
      invoke skip_empty (State metric index params) w =
      invoke skip_empty (State (Some "_all") index params) w) /\
  (forall node_id metric_family metric : ident,
      truthy metric = true ->
      truthy metric_family = false ->
      invoke skip_empty (NodeStats node_id metric_family metric params) w =
      invoke skip_empty (NodeStats node_id (Some "all") metric params) w) /\
  (forall node_id metric : ident,
      truthy node_id = false ->
      truthy metric = true ->
      invoke skip_empty (NodeInfo node_id metric params) w =
      invoke skip_empty (NodeInfo (Some "_all") metric params) w).
Proof.
  split; [| split].
  - intros metric index Hindex Hmetric; cbn [invoke]; unfold state.
    rewrite Hindex, Hmetric; reflexivity.
  - intros node_id metric_family metric Hmetric Hfamily; cbn [invoke];
      unfold node_stats.
    rewrite Hmetric, Hfamily; reflexivity.
  - intros node_id metric Hnode Hmetric; cbn [invoke]; unfold node_info.
    rewrite Hnode, Hmetric; reflexivity.
Qed.

(** X7. [node_info] asked for the metric [stats] of a node sends the very
    request [node_stats] sends for that node, and asked for a node called
    [stats] the request of [node_stats] for all nodes: the two methods share
    these paths, and the calls run alike. *)
Theorem node_info_stats_is_node_stats skip_empty params w :
  invoke skip_empty (NodeInfo (Some "stats") None params) w =
  invoke skip_empty (NodeStats None None None params) w /\
  (forall node_id : string,
      node_id <> "" ->
      invoke skip_empty (NodeInfo (Some node_id) (Some "stats") params) w =
      invoke skip_empty (NodeStats (Some node_id) None None params) w).
Proof.
  split; [reflexivity |].
  intros node_id Hnode.
  destruct node_id as [| a node_id]; [contradiction | reflexivity].
Qed.

(** ** What every call does *)

(** X8. Every call hands the [params] it was given to the transport as they
    are, and uses the method of its operation whatever its arguments. *)
Theorem params_and_method_of_every_call skip_empty c w :
  map req_params (issued skip_empty c w) = [call_params c] /\
  map req_method (issued skip_empty c w) = [fst (documented (operation c))].
Proof.
  destruct c; split; issued_one; reflexivity.
Qed.

Lemma issued_any_world skip_empty c w w' :
  issued skip_empty c w = issued skip_empty c w'.
Proof.
  destruct c; (etransitivity; [run_call | symmetry; run_call]).
Qed.

(** X9. The request of a call depends on its arguments only: the same call
    issues the same request in any two worlds, whatever the transports, their
    states and the requests sent before. *)
Theorem request_depends_on_arguments_only skip_empty c w w' :
  issued skip_empty c w = issued skip_empty c w'.
Proof.
  exact (issued_any_world skip_empty c w w').
Qed.

(** X10. Every request stays in the part of the API its operation addresses,
    whatever the identifiers, empty ones too: the path of a cluster operation
    starts with [/_cluster/], that of [node_stats] and [node_info] with
    [/_nodes]. *)
Theorem path_in_namespace skip_empty c w :
  exists req,
    issued skip_empty c w = [req] /\
    String.prefix (namespace (operation c)) (req_path req) = true.
Proof.
  destruct c as
    [index p | p | metric index p | node_id p | b p | p | b p
    | node_id metric_family metric p | node_id metric p | node_id p].
  - destruct index as [[| ? ?] |], skip_empty;
      eexists; (split; [run_call | reflexivity]).
  - eexists; (split; [run_call | reflexivity]).
  - destruct metric as [[| ? ?] |], index as [[| ? ?] |], skip_empty;
      eexists; (split; [run_call | reflexivity]).
  - destruct node_id as [[| ? ?] |], skip_empty;
      eexists; (split; [run_call | reflexivity]).
  - eexists; (split; [run_call | reflexivity]).
  - eexists; (split; [run_call | reflexivity]).
  - eexists; (split; [run_call | reflexivity]).
  - destruct node_id as [[| ? ?] |], metric_family as [[| ? ?] |],
      metric as [[| ? ?] |], skip_empty;
      eexists; (split; [run_call | reflexivity]).
  - destruct node_id as [[| ? ?] |], metric as [[| ? ?] |], skip_empty;
      eexists; (split; [run_call | reflexivity]).
  - destruct node_id as [[| ? ?] |], skip_empty;
      eexists; (split; [run_call | reflexivity]).
Qed.

(** X11. Two calls made one after the other: the requests reach the transport
    in the order of the calls, and when the first call raises, the second
    never reaches the transport and the failure is that of the first. *)
Theorem calls_in_sequence skip_empty c1 c2 w :
  let both := bind (invoke skip_empty c1) (fun _ => invoke skip_empty c2) w in
  sent (snd both) =
  (sent w ++ issued skip_empty c1 w ++
   match fst (invoke skip_empty c1 w) with
   | inl _ => []
   | inr _ => issued skip_empty c2 w
   end)%list /\
  match fst (invoke skip_empty c1 w) with
  | inl e => fst both = inl e
  | inr _ =>
      fst both = fst (invoke skip_empty c2 (snd (invoke skip_empty c1 w)))
  end.
Proof.
  cbv zeta.
  destruct (invoke_run skip_empty c1 w) as [req1 Hrun1].
  assert (Hissued1 : issued skip_empty c1 w = [req1])
    by (eapply issued_run; exact Hrun1).
  rewrite Hissued1; unfold bind; rewrite Hrun1; cbn [fst snd].
  destruct (body_of (fst (reply w req1))) as [e | data]; cbn [sent fst snd].
  - split; reflexivity.
  - set (w1 := mkWorld (self w) (snd (reply w req1)) (sent w ++ [req1])).
    destruct (invoke_run skip_empty c2 w1) as [req2 Hrun2].
    assert (Hissued2 : issued skip_empty c2 w1 = [req2])
      by (eapply issued_run; exact Hrun2).
    rewrite (issued_any_world skip_empty c2 w w1), Hissued2.
    rewrite Hrun2; cbn [snd sent]; subst w1; cbn [sent].
    split; [| reflexivity].
    rewrite <- app_assoc; reflexivity.
Qed.

End Properties.

(** * The theorems at work on the stubs *)

Lemma state_index_defaults_metric_witness :
  "foo" <> "" /\
  issued true (State None (Some "foo") []) (Stub.fresh Stub.answering) =
  [mkRequest GET "/_cluster/state/_all/foo" [] None].
Proof.
  split; [discriminate |].
  apply (state_index_defaults_metric true "foo"); discriminate.
Defined.

Lemma stats_routing_witness :
  "n1" <> "" /\
  issued true (Stats (Some "n1") []) (Stub.fresh Stub.answering) =
  [mkRequest GET "/_cluster/stats/nodes/n1" [] None].
Proof.
  split; [discriminate |].
  apply (proj1 (stats_routing true [] (Stub.fresh Stub.answering)) "n1").
  discriminate.
Defined.

Lemma node_stats_metric_defaults_family_witness :
  "docs" <> "" /\
  "n1" <> "" /\
  issued false (NodeStats None None (Some "docs") [])
    (Stub.fresh Stub.answering) =
  [mkRequest GET "/_nodes/stats/all/docs" [] None] /\
  issued false (NodeStats (Some "n1") None (Some "docs") [])
    (Stub.fresh Stub.answering) =
  [mkRequest GET "/_nodes/n1/stats/all/docs" [] None].
Proof.
  assert (Hdocs : "docs" <> "") by discriminate.
  assert (Hnode : "n1" <> "") by discriminate.
  destruct (node_stats_metric_defaults_family false "docs" []
              (Stub.fresh Stub.answering) Hdocs) as [Hall Hnodes].
  exact (conj Hdocs (conj Hnode (conj Hall (Hnodes "n1" Hnode)))).
Defined.

Lemma node_info_metric_defaults_node_witness :
  "os" <> "" /\
  issued true (NodeInfo None (Some "os") []) (Stub.fresh Stub.refusing) =
  [mkRequest GET "/_nodes/_all/os" [] None].
Proof.
  split; [discriminate |].
  apply (node_info_metric_defaults_node true "os"); discriminate.
Defined.

Lemma returns_transport_body_witness :
  fst (reply (Stub.fresh Stub.answering)
         (mkRequest GET "/_cluster/health/logs" [("level", "indices")] None)) =
  inr (200%Z, "/_cluster/health/logs") /\
  fst (invoke true (Health (Some "logs") [("level", "indices")])
         (Stub.fresh Stub.answering)) =
  inr "/_cluster/health/logs".
Proof.
  split; [reflexivity |].
  destruct (returns_transport_body true
              (Health (Some "logs") [("level", "indices")])
              (Stub.fresh Stub.answering)) as [req [Hissued Hbody]].
  vm_compute in Hissued.
  injection Hissued as <-.
  apply (Hbody 200%Z); reflexivity.
Defined.

Lemma tests_look_at_truthiness_witness :
  "os" <> "" /\
  issued false (NodeInfo (Some "") (Some "os") []) (Stub.fresh Stub.answering) =
  [mkRequest GET "/_nodes/_all/os" [] None].
Proof.
  split; [discriminate |].
  destruct (tests_look_at_truthiness false [] (Stub.fresh Stub.answering))
    as (_ & _ & _ & Hinfo & _).
  apply (Hinfo "os"); discriminate.
Defined.

Lemma only_reroute_and_put_settings_send_body_witness :
  operation (NodeShutdown (Body := Stub.Body) (Some "n1") [("delay", "1s")])
    <> OpReroute /\
  operation (NodeShutdown (Body := Stub.Body) (Some "n1") [("delay", "1s")])
    <> OpPutSettings /\
  map req_body
    (issued true (NodeShutdown (Some "n1") [("delay", "1s")])
       (Stub.fresh Stub.answering)) =
  [None].
Proof.
  assert (Hreroute :
            operation
              (NodeShutdown (Body := Stub.Body) (Some "n1") [("delay", "1s")])
            <> OpReroute) by discriminate.
  assert (Hput :
            operation
              (NodeShutdown (Body := Stub.Body) (Some "n1") [("delay", "1s")])
            <> OpPutSettings) by discriminate.
  destruct (only_reroute_and_put_settings_send_body true [("delay", "1s")]
              (Stub.fresh Stub.answering)) as (_ & _ & Hothers & _).
  exact (conj Hreroute (conj Hput (Hothers _ Hreroute Hput))).
Defined.

(** ** Runs *)

(** [state(index="foo")] on an answering transport: one GET of
    [/_cluster/state/_all/foo], whose body comes back. *)
Example state_foo_run :
  invoke true (State None (Some "foo") []) (Stub.fresh Stub.answering) =
  (inr "/_cluster/state/_all/foo",
   mkWorld (mkClient Stub.answering) 1
     [mkRequest GET "/_cluster/state/_all/foo" [] None]).
Proof. reflexivity. Qed.

(** On a transport that fails its first request only, the call fails with the
    transport's failure after that one request; the same call made again in
    the world left behind succeeds. *)
Example flaky_is_not_retried :
  let first :=
    invoke true (PutSettings (Some "{}") []) (Stub.fresh Stub.flaky) in
  fst first = inl "ConnectionTimeout" /\
  sent (snd first) = [mkRequest PUT "/_cluster/settings" [] (Some "{}")] /\
  fst (invoke true (PutSettings (Some "{}") []) (snd first)) =
  inr "/_cluster/settings".
Proof. repeat split. Qed.

(** The two readings of the path builder differ on an empty part only. *)
Example make_path_empty_part :
  _make_path true [Some "_cluster"; Some "health"; Some ""] =
  "/_cluster/health" /\
  _make_path false [Some "_cluster"; Some "health"; Some ""] =
  "/_cluster/health/" /\
  _make_path true [Some "_cluster"; Some "nodes"; None; Some "_shutdown"] =
  _make_path false [Some "_cluster"; Some "nodes"; None; Some "_shutdown"].
Proof. repeat split. Qed.

Lemma health_of_index_witness :
  "logs" <> "" /\
  issued false (Health (Some "logs") [("level", "indices")])
    (Stub.fresh Stub.answering) =
  [mkRequest GET "/_cluster/health/logs" [("level", "indices")] None].
Proof.
  split; [discriminate |].
  apply (health_of_index false "logs"); discriminate.
Defined.

Lemma node_shutdown_of_node_witness :
  "n1" <> "" /\
  issued true (NodeShutdown (Some "n1") [("delay", "1s")])
    (Stub.fresh Stub.refusing) =
  [mkRequest POST "/_cluster/nodes/n1/_shutdown" [("delay", "1s")] None].
Proof.
  split; [discriminate |].
  apply (node_shutdown_of_node true "n1"); discriminate.
Defined.

Lemma state_keeps_given_metric_witness :
  "nodes" <> "" /\
  "foo" <> "" /\
  issued true (State (Some "nodes") None []) (Stub.fresh Stub.answering) =
  [mkRequest GET "/_cluster/state/nodes" [] None] /\
  issued true (State (Some "nodes") (Some "foo") [])
    (Stub.fresh Stub.answering) =
  [mkRequest GET "/_cluster/state/nodes/foo" [] None].
Proof.
  assert (Hmetric : "nodes" <> "") by discriminate.
  assert (Hindex : "foo" <> "") by discriminate.
  destruct (state_keeps_given_metric true "nodes" []
              (Stub.fresh Stub.answering) Hmetric) as [Halone Hboth].
  exact (conj Hmetric (conj Hindex (conj Halone (Hboth "foo" Hindex)))).
Defined.

Lemma node_stats_keeps_given_family_witness :
  "indices" <> "" /\
  "docs" <> "" /\
  "n1" <> "" /\
  issued false (NodeStats None (Some "indices") None [])
    (Stub.fresh Stub.answering) =
  [mkRequest GET "/_nodes/stats/indices" [] None] /\
  issued false (NodeStats None (Some "indices") (Some "docs") [])
    (Stub.fresh Stub.answering) =
  [mkRequest GET "/_nodes/stats/indices/docs" [] None] /\
  issued false (NodeStats (Some "n1") (Some "indices") None [])
    (Stub.fresh Stub.answering) =
  [mkRequest GET "/_nodes/n1/stats/indices" [] None] /\
  issued false (NodeStats (Some "n1") (Some "indices") (Some "docs") [])
    (Stub.fresh Stub.answering) =
  [mkRequest GET "/_nodes/n1/stats/indices/docs" [] None].
Proof.
  assert (Hfamily : "indices" <> "") by discriminate.
  assert (Hmetric : "docs" <> "") by discriminate.
  assert (Hnode : "n1" <> "") by discriminate.
  destruct (node_stats_keeps_given_family false "indices" []
              (Stub.fresh Stub.answering) Hfamily)
    as (Hf & Hfm & Hnf & Hnfm).
  exact (conj Hfamily (conj Hmetric (conj Hnode
           (conj Hf (conj (Hfm "docs" Hmetric)
              (conj (Hnf "n1" Hnode) (Hnfm "n1" "docs" Hnode Hmetric))))))).
Defined.

Lemma node_paths_keep_given_node_witness :
  "n1" <> "" /\
  "os" <> "" /\
  issued true (NodeInfo (Some "n1") None []) (Stub.fresh Stub.answering) =
  [mkRequest GET "/_nodes/n1" [] None] /\
  issued true (NodeInfo (Some "n1") (Some "os") [])
    (Stub.fresh Stub.answering) =
  [mkRequest GET "/_nodes/n1/os" [] None] /\
  issued true (NodeStats (Some "n1") None None [])
    (Stub.fresh Stub.answering) =
  [mkRequest GET "/_nodes/n1/stats" [] None].
Proof.
  assert (Hnode : "n1" <> "") by discriminate.
  assert (Hmetric : "os" <> "") by discriminate.
  destruct (node_paths_keep_given_node true "n1" []
              (Stub.fresh Stub.answering) Hnode) as (Hinfo & Hmetrics & Hstats).
  exact (conj Hnode (conj Hmetric
           (conj Hinfo (conj (Hmetrics "os" Hmetric) Hstats)))).
Defined.

Lemma defaulting_is_giving_the_placeholder_witness :
  truthy (Some "foo") = true /\
  truthy (Some "") = false /\
  invoke false (State (Some "") (Some "foo") []) (Stub.fresh Stub.flaky) =
  invoke false (State (Some "_all") (Some "foo") []) (Stub.fresh Stub.flaky) /\
  invoke false (NodeStats None (Some "") (Some "foo") [])
    (Stub.fresh Stub.flaky) =
  invoke false (NodeStats None (Some "all") (Some "foo") [])
    (Stub.fresh Stub.flaky) /\
  invoke false (NodeInfo (Some "") (Some "foo") []) (Stub.fresh Stub.flaky) =
  invoke false (NodeInfo (Some "_all") (Some "foo") []) (Stub.fresh Stub.flaky).
Proof.
  assert (Hfoo : truthy (Some "foo") = true) by reflexivity.
  assert (Hempty : truthy (Some "") = false) by reflexivity.
  destruct (defaulting_is_giving_the_placeholder false []
              (Stub.fresh Stub.flaky)) as (Hstate & Hstats & Hinfo).
  exact (conj Hfoo (conj Hempty
           (conj (Hstate (Some "") (Some "foo") Hfoo Hempty)
              (conj (Hstats None (Some "") (Some "foo") Hfoo Hempty)
                 (Hinfo (Some "") (Some "foo") Hempty Hfoo))))).
Defined.

Lemma node_info_stats_is_node_stats_witness :
  "n1" <> "" /\
  invoke true (NodeInfo (Some "n1") (Some "stats") [])
    (Stub.fresh Stub.answering) =
  invoke true (NodeStats (Some "n1") None None [])
    (Stub.fresh Stub.answering).
Proof.
  split; [discriminate |].
  apply (proj2 (node_info_stats_is_node_stats true []
                  (Stub.fresh Stub.answering)) "n1").
  discriminate.
Defined.
